(** * ElixirLS Fork extension: [src/extension.ts]

    A shallow embedding of the extension's entry points ([activate],
    [deactivate], the [extension.copyDebugInfo] command) and of their helpers
    ([testElixirCommand], [testElixir], [detectConflictingExtension]).

    The source is sequential glue around the editor host, Node's
    [child_process]/[os]/[process] modules and [shelljs].  What the host
    answers is a parameter ([Host]); what the code does to the host is
    recorded, in order, in a trace of calls ([Event]); the module-level
    [languageClient] variable and the [context.subscriptions] array are the
    mutable state.  A JavaScript exception is the [Throw] outcome of a small
    state-and-exception monad. *)

From Stdlib Require Import Strings.Ascii Strings.Byte.
From stdpp Require Import base option list strings gmap.

Local Open Scope string_scope.
Local Open Scope list_scope.
Local Open Scope nat_scope.

(** ** Text *)

(** The double-quote and line-feed characters of the source's literals. *)
Definition dquote : string := String "034"%char EmptyString.
Definition newline : string := String "010"%char EmptyString.

(** A string is a sequence of bytes: a JavaScript string is represented by
    its UTF-8 encoding. *)

(** [Buffer]: what [execSync] returns when no encoding is given. *)
Definition Buffer : Type := list byte.

(** [utf8_decode]: a UTF-8 decoder that replaces what is ill-formed, as
    [Buffer.prototype.toString()] does.  With the convention above a
    well-formed sequence decodes to its own bytes, and each maximal
    ill-formed part to the three bytes of U+FFFD.  The example hosts
    decode with it. *)
Definition replacement : list byte := [xef; xbf; xbd]%byte.

(** How a byte starts a character: on its own, as the first of a sequence
    with [needed] more bytes, the next of which lies between [lower] and
    [upper], or not at all. *)
Inductive LeadByte :=
  | OneByte
  | Lead (needed : nat) (lower upper : N)
  | NotALead.

Definition lead_byte (b : byte) : LeadByte :=
  let n := Byte.to_N b in
  if (n <=? 0x7F)%N then OneByte
  else if ((0xC2 <=? n) && (n <=? 0xDF))%N then Lead 1 0x80 0xBF
  else if ((0xE0 <=? n) && (n <=? 0xEF))%N then
    Lead 2 (if (n =? 0xE0)%N then 0xA0 else 0x80)%N
           (if (n =? 0xED)%N then 0x9F else 0xBF)%N
  else if ((0xF0 <=? n) && (n <=? 0xF4))%N then
    Lead 3 (if (n =? 0xF0)%N then 0x90 else 0x80)%N
           (if (n =? 0xF4)%N then 0x8F else 0xBF)%N
  else NotALead.

(** [pending] holds the bytes of the sequence under way, last first, and
    [left] how many more it needs; [left = 0] is the state between
    characters.  A byte that cannot continue the sequence ends it with a
    replacement and is then read as the start of a new one. *)
Fixpoint utf8_bytes (pending : list byte) (left : nat) (lower upper : N)
    (bs : list byte) : list byte :=
  match bs with
  | [] =>
      match left with
      | 0 => []
      | S _ => replacement
      end
  | b :: rest =>
      let start :=
        match lead_byte b with
        | OneByte => b :: utf8_bytes [] 0 0x80%N 0xBF%N rest
        | Lead needed lo hi => utf8_bytes [b] needed lo hi rest
        | NotALead => replacement ++ utf8_bytes [] 0 0x80%N 0xBF%N rest
        end in
      match left with
      | 0 => start
      | S left' =>
          if ((lower <=? Byte.to_N b) && (Byte.to_N b <=? upper))%N then
            match left' with
            | 0 => rev (b :: pending) ++ utf8_bytes [] 0 0x80%N 0xBF%N rest
            | S _ => utf8_bytes (b :: pending) left' 0x80%N 0xBF%N rest
            end
          else replacement ++ start
      end
  end.

Definition utf8_decode (b : Buffer) : string :=
  String.string_of_list_byte (utf8_bytes [] 0 0x80%N 0xBF%N b).

(** [`${v}`] and [+ v] for a value that may be [undefined]. *)
Definition template_value (v : option string) : string :=
  match v with
  | Some s => s
  | None => "undefined"
  end.

(** [sub] occurs in [s] as a literal substring. *)
Definition contains (sub s : string) : Prop :=
  ∃ pre post : string, s = pre +:+ sub +:+ post.

(** [s] ends in [suffix]. *)
Definition ends_with (suffix s : string) : Prop :=
  ∃ pre : string, s = pre +:+ suffix.

(** ** Objects of the host and of the client library *)

(** [vscode.Extension]: of the manifest only [packageJSON.version] is read. *)
Record Extension := {
  extension_id : string;
  packageJSON_version : string
}.

(** [RevealOutputChannelOn] of vscode-languageclient. *)
Module RevealOutputChannelOn.
Inductive t := Info | Warn | Error | Never.
End RevealOutputChannelOn.

(** A document filter; a field that the literal does not give is absent. *)
Record DocumentFilter := {
  language : option string;
  scheme : option string;
  pattern : option string
}.

(** What [workspace.createFileSystemWatcher(glob)] returns: the three
    [ignore...Events] arguments are not passed, so all are [false]. *)
Record FileSystemWatcher := {
  globPattern : string;
  ignoreCreateEvents : bool;
  ignoreChangeEvents : bool;
  ignoreDeleteEvents : bool
}.

Record SynchronizeOptions := {
  configurationSection : string;
  fileEvents : list FileSystemWatcher
}.

Record LanguageClientOptions := {
  documentSelector : list DocumentFilter;
  revealOutputChannelOn : RevealOutputChannelOn.t;
  synchronize : SynchronizeOptions
}.

(** [Executable]: [args] is optional. *)
Record Executable := {
  command : string;
  args : option (list string)
}.

Record ServerOptions := {
  run : Executable;
  debug : Executable
}.

(** [new LanguageClient(id, name, serverOptions, clientOptions)]. *)
Record LanguageClient := {
  client_id : string;
  client_name : string;
  client_serverOptions : ServerOptions;
  client_clientOptions : LanguageClientOptions
}.

(** The handle [languageClient.start()] returns. *)
Inductive Disposable :=
  | StartDisposable (client : LanguageClient).

(** The promise [languageClient.stop()] returns. *)
Inductive Thenable :=
  | StopThenable (client : LanguageClient).

(** The functions of this module that are handed to the host as callbacks. *)
Inductive Handler :=
  | Handler_copyDebugInfo.

(** ** Calls made to the outside, in the order they are made *)
Inductive Event :=
  | Exec (cmd : string)                       (* child_process.execSync(cmd) *)
  | Which (name : string)                     (* shell.which(name) *)
  | ShowErrorMessage (msg : string)           (* vscode.window.showErrorMessage *)
  | ShowInformationMessage (msg : string)     (* vscode.window.showInformationMessage *)
  | ConsoleWarn (msg : string)                (* console.warn *)
  | RegisterCommand (name : string) (h : Handler)
  | CreateFileSystemWatcher (glob : string)
  | NewLanguageClient (client : LanguageClient)
  | ClientStart (client : LanguageClient)
  | ClientStop (client : LanguageClient)
  | ClipboardWriteText (text : string).       (* vscode.env.clipboard.writeText *)

(** ** The environment *)

(** What the outside answers.  A process or a path search may answer
    differently from one call to the next, so both depend on the calls made
    so far; [None] is a thrown error for [execSync] (the command was not
    found, exited with a non-zero status, ...) and [null] for [which].
    [vscode.extensions.getExtension] answers the extension registered
    under an identifier, or [undefined]; [process.env] is an object used as
    a map.  [Buffer_toString] is [Buffer.prototype.toString()] of the
    runtime, called without an encoding. *)
Record Host := {
  child_process_execSync : list Event → string → option Buffer;
  Buffer_toString : Buffer → string;
  shell_which : list Event → string → option string;
  vscode_extensions_getExtension : string → option Extension;
  os_platform : string;
  os_release : string;
  process_env : gmap string string
}.

(** [ExtensionContext]: the method the code calls.  The array
    [context.subscriptions] is mutable and lives in [State]. *)
Record ExtensionContext := {
  asAbsolutePath : string → string
}.

(** ** State, exceptions, and the monad of the embedding *)

Record State := {
  trace : list Event;
  languageClient : option LanguageClient;   (* export let languageClient *)
  subscriptions : list Disposable           (* context.subscriptions *)
}.

Inductive Exn :=
  | ExecError (cmd : string)         (* thrown by execSync *)
  | TypeError (property : string).   (* [property] read on undefined *)

Inductive Outcome (A : Type) :=
  | Return (a : A)
  | Throw (e : Exn).
Arguments Return {A} a.
Arguments Throw {A} e.

Definition M (A : Type) : Type := State → Outcome A * State.

#[global] Instance M_ret : MRet M := λ A a s, (Return a, s).

#[global] Instance M_bind : MBind M := λ A B k m s,
  match m s with
  | (Return a, s') => k a s'
  | (Throw e, s') => (Throw e, s')
  end.

Definition throw {A : Type} (e : Exn) : M A := λ s, (Throw e, s).

(** [try { body } catch { handler }] *)
Definition try_catch {A : Type} (body handler : M A) : M A := λ s,
  match body s with
  | (Return a, s') => (Return a, s')
  | (Throw _, s') => handler s'
  end.

Definition log (ev : Event) (s : State) : State :=
  {| trace := trace s ++ [ev];
     languageClient := languageClient s;
     subscriptions := subscriptions s |}.

Definition emit (ev : Event) : M unit := λ s, (Return (), log ev s).

(** [s] after the calls [evs], its variables untouched. *)
Definition add_events (evs : list Event) (s : State) : State :=
  {| trace := trace s ++ evs;
     languageClient := languageClient s;
     subscriptions := subscriptions s |}.

(** The calls made by a run from [s] to [s']. *)
Definition events_since (s s' : State) : list Event :=
  drop (length (trace s)) (trace s').

(** ** The program *)

Section Program.
Context (host : Host).

(** *** Host calls *)

Definition execSync (cmd : string) : M Buffer := λ s,
  match child_process_execSync host (trace s) cmd with
  | Some stdout => (Return stdout, log (Exec cmd) s)
  | None => (Throw (ExecError cmd), log (Exec cmd) s)
  end.

Definition which (name : string) : M (option string) := λ s,
  (Return (shell_which host (trace s) name), log (Which name) s).

Definition getExtension (extensionId : string) : option Extension :=
  vscode_extensions_getExtension host extensionId.

Definition showErrorMessage (msg : string) : M unit :=
  emit (ShowErrorMessage msg).

Definition showInformationMessage (msg : string) : M unit :=
  emit (ShowInformationMessage msg).

Definition console_warn (msg : string) : M unit :=
  emit (ConsoleWarn msg).

Definition clipboard_writeText (text : string) : M unit :=
  emit (ClipboardWriteText text).

Definition registerCommand (name : string) (h : Handler) : M unit :=
  emit (RegisterCommand name h).

Definition createFileSystemWatcher (glob : string) : M FileSystemWatcher :=
  emit (CreateFileSystemWatcher glob);;
  mret {| globPattern := glob;
          ignoreCreateEvents := false;
          ignoreChangeEvents := false;
          ignoreDeleteEvents := false |}.

(** *** [testElixirCommand] (lines 20-26)

    [false | Buffer] is [option Buffer], [false] being [None]. *)

(** The template literal of line 22. *)
Definition probe_command (command : string) : string :=
  command +:+ " -e " +:+ dquote +:+ dquote.

Definition testElixirCommand (command : string) : M (option Buffer) :=
  try_catch
    (stdout ← execSync (probe_command command);
     mret (Some stdout))
    (mret None).

(** *** [testElixir] (lines 28-57) *)

Definition failed_to_run_message : string :=
  "Failed to run 'elixir' command. ElixirLS will probably fail to launch. Logged PATH to Development Console.".

Definition failed_to_run_log : string :=
  "Failed to run 'elixir' command. Current process's PATH: "
    +:+ template_value (process_env host !! "PATH").

Definition extraneous_print_message : string :=
  "Running 'elixir' command caused extraneous print to stdout. See VS Code's developer console for details.".

Definition extraneous_print_log (testResult : Buffer) : string :=
  "Running 'elixir -e " +:+ dquote +:+ dquote +:+ "' printed to stdout:"
    +:+ newline +:+ Buffer_toString host testResult.

(** Lines 29-36: the value of [testResult] when line 38 is reached.
    [shell.which] answers a path object or [null]; only [null] is falsy. *)
Definition testElixir_run : M (option Buffer) :=
  testResult ← testElixirCommand "elixir";
  match testResult with
  | None =>
      elixirPath ← which "elixir";
      match elixirPath with
      | Some path => testElixirCommand path
      | None => mret testResult
      end
  | Some _ => mret testResult
  end.

(** Lines 38-56.  A [Buffer] is an object, so [!testResult] holds for
    [false] only, also when the buffer is empty. *)
Definition testElixir_report (testResult : option Buffer) : M bool :=
  match testResult with
  | None =>
      showErrorMessage failed_to_run_message;;
      console_warn failed_to_run_log;;
      mret false
  | Some stdout =>
      if bool_decide (0 < length stdout) then
        showErrorMessage extraneous_print_message;;
        console_warn (extraneous_print_log stdout);;
        mret false
      else
        mret true
  end.

Definition testElixir : M bool :=
  testResult ← testElixir_run;
  testElixir_report testResult.

(** *** [detectConflictingExtension] (lines 124-129)

    [getExtension] answers an object or [undefined]; an object is truthy. *)
Definition detectConflictingExtension (extensionId : string) : M unit :=
  let extension := getExtension extensionId in
  match extension with
  | Some _ =>
      showErrorMessage
        ("Warning: " +:+ extensionId
           +:+ " is not compatible with ElixirLS Fork, please uninstall "
           +:+ extensionId)
  | None => mret ()
  end.

(** *** [copyDebugInfo] (lines 131-143) *)

(** [obj.name]: reading a property of [undefined] throws a [TypeError]. *)
Definition read_property {A B : Type}
    (obj : option A) (name : string) (get : A → B) : M B :=
  match obj with
  | Some o => mret (get o)
  | None => throw (TypeError name)
  end.

(** The template literal of lines 135-139, its holes filled left to right. *)
Definition debug_message (elixirVersion : Buffer) (version : string) : string :=
  newline
    +:+ "  * Elixir & Erlang versions (elixir --version): "
    +:+ Buffer_toString host elixirVersion +:+ newline
    +:+ "  * VSCode ElixirLS Fork version: " +:+ version +:+ newline
    +:+ "  * Operating System Version: "
    +:+ os_platform host +:+ " " +:+ os_release host +:+ newline
    +:+ "  ".

Definition copyDebugInfo : M unit :=
  elixirVersion ← execSync "elixir --version";
  let extension := getExtension "jakebecker.elixir-ls" in
  version ← read_property extension "packageJSON" packageJSON_version;
  let message := debug_message elixirVersion version in
  showInformationMessage ("Copied to clipboard: " +:+ message);;
  clipboard_writeText message.

(** What the host runs when a registered command is invoked. *)
Definition run_handler (h : Handler) : M unit :=
  match h with
  | Handler_copyDebugInfo => copyDebugInfo
  end.

(** *** The client library *)

Definition new_LanguageClient (id name : string)
    (serverOptions : ServerOptions) (clientOptions : LanguageClientOptions)
    : M LanguageClient :=
  let client := {| client_id := id;
                   client_name := name;
                   client_serverOptions := serverOptions;
                   client_clientOptions := clientOptions |} in
  emit (NewLanguageClient client);;
  mret client.

Definition LanguageClient_start (client : LanguageClient) : M Disposable :=
  emit (ClientStart client);;
  mret (StartDisposable client).

Definition LanguageClient_stop (client : LanguageClient) : M Thenable :=
  emit (ClientStop client);;
  mret (StopThenable client).

(** *** The module variable and the subscriptions array *)

Definition get_languageClient : M (option LanguageClient) := λ s,
  (Return (languageClient s), s).

Definition set_languageClient (client : LanguageClient) : M unit := λ s,
  (Return (),
   {| trace := trace s;
      languageClient := Some client;
      subscriptions := subscriptions s |}).

Definition subscriptions_push (d : Disposable) : M unit := λ s,
  (Return (),
   {| trace := trace s;
      languageClient := languageClient s;
      subscriptions := subscriptions s ++ [d] |}).

(** *** [activate] (lines 61-115) *)

(** Lines 70-71. *)
Definition launcher_script : string :=
  if bool_decide (os_platform host = "win32")
  then "language_server.bat"
  else "language_server.sh".

(** Lines 73-75: the object literal gives [command] only. *)
Definition serverOpts (context : ExtensionContext) : Executable :=
  let command := launcher_script in
  {| command := asAbsolutePath context ("./elixir-ls-release/" +:+ command);
     args := None |}.

(** Lines 79-82. *)
Definition serverOptions (context : ExtensionContext) : ServerOptions :=
  {| run := serverOpts context; debug := serverOpts context |}.

(** Lines 85-101, given the watcher that line 98 creates. *)
Definition clientOptions (watcher : FileSystemWatcher) : LanguageClientOptions :=
  {| documentSelector :=
       [ {| language := Some "elixir"; scheme := Some "file";
            pattern := None |};
         {| language := Some "elixir"; scheme := Some "untitled";
            pattern := None |} ];
     revealOutputChannelOn := RevealOutputChannelOn.Never;
     synchronize :=
       {| configurationSection := "elixirLS";
          fileEvents := [ watcher ] |} |}.

Definition activate (context : ExtensionContext) : M unit :=
  testElixir;;
  detectConflictingExtension "mjmcloug.vscode-elixir";;
  detectConflictingExtension "elixir-lsp.elixir-ls";;
  detectConflictingExtension "sammkj.vscode-elixir-formatter";;
  registerCommand "extension.copyDebugInfo" Handler_copyDebugInfo;;
  watcher ← createFileSystemWatcher "**/*.{ex,exs,erl,yrl,xrl,eex}";
  client ← new_LanguageClient "elixirLS" "ElixirLS"
             (serverOptions context) (clientOptions watcher);
  set_languageClient client;;
  disposable ← LanguageClient_start client;
  subscriptions_push disposable.

(** *** [deactivate] (lines 117-122): [None] is [undefined]. *)
Definition deactivate : M (option Thenable) :=
  client ← get_languageClient;
  match client with
  | None => mret None
  | Some client =>
      stopped ← LanguageClient_stop client;
      mret (Some stopped)
  end.

End Program.

(** ** Which documents a selector covers

    The host's reading of a document selector: a document is covered when
    one of the filters matches it, and a filter matches when each field it
    gives does (["*"] stands for any language or scheme; [glob_match] is the
    host's glob matcher, used for a [pattern]). *)

Record TextDocument := {
  doc_languageId : string;
  doc_scheme : string;
  doc_fileName : string
}.

Definition field_matches (field : option string) (value : string) : bool :=
  match field with
  | None => true
  | Some f => bool_decide (f = value) || bool_decide (f = "*")
  end.

Definition filter_matches (glob_match : string → string → bool)
    (f : DocumentFilter) (d : TextDocument) : bool :=
  field_matches (language f) (doc_languageId d)
  && field_matches (scheme f) (doc_scheme d)
  && match pattern f with
     | None => true
     | Some g => glob_match g (doc_fileName d)
     end.

Definition selector_covers (glob_match : string → string → bool)
    (selector : list DocumentFilter) (d : TextDocument) : bool :=
  existsb (λ f, filter_matches glob_match f d) selector.

(** ** Counting calls in a trace *)

Definition is_Exec (ev : Event) : bool :=
  match ev with Exec _ => true | _ => false end.

Definition is_Which (ev : Event) : bool :=
  match ev with Which _ => true | _ => false end.

Definition is_ShowErrorMessage (ev : Event) : bool :=
  match ev with ShowErrorMessage _ => true | _ => false end.

Definition is_notification (ev : Event) : bool :=
  match ev with
  | ShowErrorMessage _ | ShowInformationMessage _ => true
  | _ => false
  end.

Definition is_ClipboardWriteText (ev : Event) : bool :=
  match ev with ClipboardWriteText _ => true | _ => false end.

Definition count (p : Event → bool) (evs : list Event) : nat :=
  length (List.filter p evs).

(** ** What the outside answers to the probe

    The answers to the calls of [testElixir] when it starts in state [s]:
    to the direct run, to the path search that follows a failed direct run,
    and to the run of the path found. *)

Definition direct_answer (h : Host) (s : State) : option Buffer :=
  child_process_execSync h (trace s) (probe_command "elixir").

Definition resolved_path (h : Host) (s : State) : option string :=
  shell_which h (trace s ++ [Exec (probe_command "elixir")]) "elixir".

Definition retry_answer (h : Host) (s : State) (path : string) : option Buffer :=
  child_process_execSync h
    (trace s ++ [Exec (probe_command "elixir"); Which "elixir"])
    (probe_command path).

(** The runtime command was executed, directly or at the path found, and
    printed [stdout]. *)
Definition runs_with (h : Host) (s : State) (stdout : Buffer) : Prop :=
  direct_answer h s = Some stdout
  ∨ (direct_answer h s = None
     ∧ ∃ path, resolved_path h s = Some path
               ∧ retry_answer h s path = Some stdout).

(** The runtime command could not be executed: the direct run failed, and
    either no path was found or the run of the path found failed too. *)
Definition not_runnable (h : Host) (s : State) : Prop :=
  direct_answer h s = None
  ∧ ∀ path, resolved_path h s = Some path → retry_answer h s path = None.

(** The initial state of the module: nothing called yet, [languageClient]
    declared and not assigned, no subscription. *)
Definition initial_state : State :=
  {| trace := []; languageClient := None; subscriptions := [] |}.

(** ** File names and the end of a path *)

Definition is_separator (c : ascii) : bool :=
  bool_decide (c = "/"%char) || bool_decide (c = "\"%char).

Fixpoint has_separator (s : string) : bool :=
  match s with
  | EmptyString => false
  | String c rest => is_separator c || has_separator rest
  end.

(** A name that a path can end in: not empty, neither of the two dot
    names, no separator in it. *)
Definition plain_file_name (file : string) : bool :=
  negb (bool_decide (file = EmptyString))
  && negb (bool_decide (file = "."))
  && negb (bool_decide (file = ".."))
  && negb (has_separator file).

(** What the code relies on when it calls [context.asAbsolutePath]: the
    answer to a relative path that ends in a file name ends in that file
    name. *)
Definition keeps_file_name (context : ExtensionContext) : Prop :=
  ∀ dir file, plain_file_name file = true →
    ends_with file (asAbsolutePath context (dir +:+ "/" +:+ file)).

Fixpoint string_last (s : string) : option ascii :=
  match s with
  | EmptyString => None
  | String c EmptyString => Some c
  | String _ rest => string_last rest
  end.

(** A context of an extension installed under a POSIX home directory,
    whose [asAbsolutePath] puts the installation path and a separator in
    front of the relative path. *)
Definition example_context : ExtensionContext :=
  {| asAbsolutePath := λ relativePath,
       "/home/dev/.vscode/extensions/elixir-ls-fork" +:+ "/"
         +:+ relativePath |}.

(** ** Some hosts

    A host whose processes and path search answer the same at every call:
    [exec] gives the standard output of a command that runs, [found] the
    path that the search gives for the runtime. *)
Definition steady_host (exec : string → option Buffer) (found : option string)
    (installed : gmap string Extension) (platform : string) : Host :=
  {| child_process_execSync := λ _ cmd, exec cmd;
     Buffer_toString := utf8_decode;
     shell_which := λ _ _, found;
     vscode_extensions_getExtension := λ extensionId, installed !! extensionId;
     os_platform := platform;
     os_release := "5.15.0";
     process_env := {[ "PATH" := "/usr/local/bin:/usr/bin:/bin" ]} |}.

(** The bytes of ["hi"] and a line feed. *)
Definition greeting : Buffer := [x68; x69; x0a]%byte.

(** The bytes of ["Elixir 1.10.4"]. *)
Definition version_banner : Buffer :=
  [x45; x6c; x69; x78; x69; x72; x20; x31; x2e; x31; x30; x2e; x34]%byte.

(** A shell profile prints a greeting whenever the runtime starts. *)
Definition noisy_host : Host :=
  steady_host
    (λ cmd, if bool_decide (cmd = "elixir --version")
            then Some (greeting ++ version_banner)
            else Some greeting)
    (Some "/usr/bin/elixir") ∅ "linux".

(** No runtime anywhere, and no extension installed. *)
Definition bare_host : Host :=
  steady_host (λ _, None) None ∅ "win32".

(** The runtime is not on the search path of the shell that [execSync]
    starts, yet the path search finds it; the extension of the debug-info
    command and a conflicting one are installed. *)
Definition resolving_host : Host :=
  steady_host
    (λ cmd, if bool_decide (cmd = probe_command "/opt/elixir/bin/elixir")
            then Some []
            else if bool_decide (cmd = "elixir --version")
            then Some version_banner
            else None)
    (Some "/opt/elixir/bin/elixir")
    (<[ "jakebecker.elixir-ls" :=
          {| extension_id := "jakebecker.elixir-ls";
             packageJSON_version := "0.2.3" |} ]>
       {[ "mjmcloug.vscode-elixir" :=
            {| extension_id := "mjmcloug.vscode-elixir";
               packageJSON_version := "1.1.0" |} ]})
    "darwin".

(** ** More on the calls of a run *)

Definition is_ConsoleWarn (ev : Event) : bool :=
  match ev with ConsoleWarn _ => true | _ => false end.

Definition is_ClientStop (ev : Event) : bool :=
  match ev with ClientStop _ => true | _ => false end.

Definition is_ClientStart (ev : Event) : bool :=
  match ev with ClientStart _ => true | _ => false end.

Definition is_NewLanguageClient (ev : Event) : bool :=
  match ev with NewLanguageClient _ => true | _ => false end.

Definition is_RegisterCommand (ev : Event) : bool :=
  match ev with RegisterCommand _ _ => true | _ => false end.

(** The calls that [testElixir] can make. *)
Definition probe_call (ev : Event) : bool :=
  match ev with
  | Exec _ | Which _ | ShowErrorMessage _ | ConsoleWarn _ => true
  | _ => false
  end.

(** The calls that stop a client, write to the clipboard or show an
    informational message. *)
Definition closing_call (ev : Event) : bool :=
  match ev with
  | ClientStop _ | ClipboardWriteText _ | ShowInformationMessage _ => true
  | _ => false
  end.

(** The warning of line 127 for [extensionId], when the registry of [h]
    has that identifier. *)
Definition conflict_warning (h : Host) (extensionId : string) : list Event :=
  match getExtension h extensionId with
  | Some _ =>
      [ShowErrorMessage
         ("Warning: " +:+ extensionId
            +:+ " is not compatible with ElixirLS Fork, please uninstall "
            +:+ extensionId)]
  | None => []
  end.

(** A host without [PATH] in its environment and without a runtime. *)
Definition pathless_host : Host :=
  {| child_process_execSync := λ _ _, None;
     Buffer_toString := utf8_decode;
     shell_which := λ _ _, None;
     vscode_extensions_getExtension := λ _, None;
     os_platform := "linux";
     os_release := "5.15.0";
     process_env := ∅ |}.

(** * Properties *)

(** ** Text *)

Lemma append_nil_r (s : string) : s +:+ EmptyString = s.
Proof.
  induction s as [|c s IH]; [done|].
  change (String c (s +:+ EmptyString) = String c s). by rewrite IH.
Qed.

Lemma append_assoc (s1 s2 s3 : string) :
  (s1 +:+ s2) +:+ s3 = s1 +:+ s2 +:+ s3.
Proof.
  induction s1 as [|c s1 IH]; [done|].
  change (String c ((s1 +:+ s2) +:+ s3) = String c (s1 +:+ s2 +:+ s3)).
  by rewrite IH.
Qed.

Lemma contains_end (pre sub : string) : contains sub (pre +:+ sub).
Proof. exists pre, EmptyString. by rewrite append_nil_r. Qed.

Lemma contains_start (sub post : string) : contains sub (sub +:+ post).
Proof. by exists EmptyString, post. Qed.

Lemma contains_middle (pre sub post : string) :
  contains sub (pre +:+ sub +:+ post).
Proof. by exists pre, post. Qed.

Lemma contains_append_l (sub s1 s2 : string) :
  contains sub s1 → contains sub (s1 +:+ s2).
Proof.
  intros (pre & post & ->). exists pre, (post +:+ s2).
  by rewrite !append_assoc.
Qed.

Lemma contains_append_r (sub s1 s2 : string) :
  contains sub s2 → contains sub (s1 +:+ s2).
Proof.
  intros (pre & post & ->). exists (s1 +:+ pre), post.
  by rewrite !append_assoc.
Qed.

(** ** Runs that return and only add calls *)

Lemma log_add_events ev s : log ev s = add_events [ev] s.
Proof. reflexivity. Qed.

Lemma add_events_nil s : add_events [] s = s.
Proof. destruct s; unfold add_events; simpl. by rewrite app_nil_r. Qed.

Lemma add_events_app evs1 evs2 s :
  add_events evs2 (add_events evs1 s) = add_events (evs1 ++ evs2) s.
Proof. unfold add_events; simpl. by rewrite app_assoc. Qed.

Lemma events_since_add_events evs s : events_since s (add_events evs s) = evs.
Proof. unfold events_since, add_events; simpl. apply drop_app_length. Qed.

Lemma events_since_refl s : events_since s s = [].
Proof. unfold events_since. apply drop_all. Qed.

(** The wrappers of the host's calls, unfolded together. *)
Create HintDb host_calls.
#[global] Hint Unfold showErrorMessage showInformationMessage console_warn
  clipboard_writeText registerCommand createFileSystemWatcher
  new_LanguageClient LanguageClient_start LanguageClient_stop emit
  : host_calls.

(** Runs a straight-line sequence of calls and gathers them in one list. *)
Ltac run_calls :=
  autounfold with host_calls; unfold mbind, M_bind, mret, M_ret;
  cbn beta iota; rewrite ?log_add_events, ?add_events_app;
  cbn [app].

(** [m] never throws and leaves the module's variables as they are. *)
Definition harmless {A : Type} (m : M A) : Prop :=
  ∀ s, ∃ a evs, m s = (Return a, add_events evs s).

Lemma harmless_ret {A : Type} (a : A) : harmless (mret a).
Proof. intros s. exists a, []. by rewrite add_events_nil. Qed.

Lemma harmless_emit ev : harmless (emit ev).
Proof. intros s. by exists (), [ev]. Qed.

Lemma harmless_bind {A B : Type} (m : M A) (k : A → M B) :
  harmless m → (∀ a, harmless (k a)) → harmless (m ≫= k).
Proof.
  intros Hm Hk s. destruct (Hm s) as (a & evs1 & E1).
  destruct (Hk a (add_events evs1 s)) as (b & evs2 & E2).
  exists b, (evs1 ++ evs2).
  unfold mbind, M_bind. by rewrite E1, E2, add_events_app.
Qed.

(** ** The probe *)

Section Probe.
Context (h : Host).

(** [testElixirCommand] answers what the process answered, and the
    exception of [execSync] goes no further. *)
Lemma testElixirCommand_eq command s :
  testElixirCommand h command s =
    (Return (child_process_execSync h (trace s) (probe_command command)),
     add_events [Exec (probe_command command)] s).
Proof.
  unfold testElixirCommand, try_catch, execSync, mbind, M_bind, mret, M_ret.
  by destruct (child_process_execSync _ _ _).
Qed.

(** The three shapes of the first half of [testElixir]. *)
Lemma testElixir_run_eq s :
  testElixir_run h s =
    let direct := probe_command "elixir" in
    match child_process_execSync h (trace s) direct with
    | Some stdout => (Return (Some stdout), add_events [Exec direct] s)
    | None =>
        match shell_which h (trace s ++ [Exec direct]) "elixir" with
        | None =>
            (Return None, add_events [Exec direct; Which "elixir"] s)
        | Some path =>
            (Return (child_process_execSync h
                       (trace s ++ [Exec direct; Which "elixir"])
                       (probe_command path)),
             add_events
               [Exec direct; Which "elixir"; Exec (probe_command path)] s)
        end
    end.
Proof.
  unfold testElixir_run, mbind, M_bind. rewrite testElixirCommand_eq.
  cbv zeta.
  destruct (child_process_execSync _ _ _) as [stdout|]; [reflexivity|].
  unfold which. rewrite log_add_events, add_events_app.
  cbn [trace add_events app].
  destruct (shell_which _ _ _) as [path|]; [|reflexivity].
  rewrite testElixirCommand_eq, add_events_app.
  cbn [trace add_events app]. reflexivity.
Qed.

Lemma testElixir_report_eq testResult s :
  testElixir_report h testResult s =
    match testResult with
    | None =>
        (Return false,
         add_events [ShowErrorMessage failed_to_run_message;
                     ConsoleWarn (failed_to_run_log h)] s)
    | Some [] => (Return true, s)
    | Some stdout =>
        (Return false,
         add_events [ShowErrorMessage extraneous_print_message;
                     ConsoleWarn (extraneous_print_log h stdout)] s)
    end.
Proof.
  unfold testElixir_report.
  destruct testResult as [[|b stdout]|]; simpl; try done; by run_calls.
Qed.

Lemma testElixir_run_harmless : harmless (testElixir_run h).
Proof.
  intros s. rewrite testElixir_run_eq. simpl.
  repeat case_match; eauto.
Qed.

Lemma testElixir_report_harmless testResult :
  harmless (testElixir_report h testResult).
Proof.
  intros s. rewrite testElixir_report_eq.
  repeat case_match; eauto. exists true, []. by rewrite add_events_nil.
Qed.

Lemma testElixir_harmless : harmless (testElixir h).
Proof.
  apply harmless_bind;
    auto using testElixir_run_harmless, testElixir_report_harmless.
Qed.

(** [testElixir] in one equation: the calls of the first half, then those
    of the report on its result. *)
Lemma testElixir_eq s :
  testElixir h s =
    let direct := probe_command "elixir" in
    match direct_answer h s with
    | Some stdout =>
        testElixir_report h (Some stdout) (add_events [Exec direct] s)
    | None =>
        match resolved_path h s with
        | None =>
            testElixir_report h None
              (add_events [Exec direct; Which "elixir"] s)
        | Some path =>
            testElixir_report h (retry_answer h s path)
              (add_events
                 [Exec direct; Which "elixir"; Exec (probe_command path)] s)
        end
    end.
Proof.
  unfold testElixir, mbind, M_bind. rewrite testElixir_run_eq.
  unfold direct_answer, resolved_path, retry_answer. cbv zeta.
  destruct (child_process_execSync h (trace s) _); [reflexivity|].
  destruct (shell_which h _ _); reflexivity.
Qed.

End Probe.

(** Case analysis on the answers to the probe, leaving the calls of the
    run as an explicit list. *)
Ltac probe_cases h s :=
  rewrite ?testElixir_eq; cbv zeta;
  destruct (direct_answer h s) as [[|? ?]|] eqn:Hdirect;
    [ | |destruct (resolved_path h s) as [?path|] eqn:Hresolved;
          [destruct (retry_answer h s path) as [[|? ?]|] eqn:Hretry|] ];
  rewrite ?testElixir_report_eq; cbn [fst snd];
  rewrite ?add_events_app, ?events_since_add_events;
  cbn [app fst snd].

(** Membership of a call in an explicit list of calls, one case per
    element. *)
Ltac in_calls H :=
  repeat (apply elem_of_cons in H as [H|H]);
  try (apply elem_of_nil in H; destruct H);
  try discriminate H; try congruence.

(** Two messages of the probe are different texts. *)
Lemma failed_to_run_not_extraneous :
  failed_to_run_message ≠ extraneous_print_message.
Proof. discriminate. Qed.

(** C1: whenever the runtime command was executed and printed something,
    the probe shows the extraneous-print warning and not the failed-to-run
    warning, writes to the console the line that ends in the captured
    output as the runtime decodes it, and returns [false]; and the
    failed-to-run warning is shown only when the command, also after the
    retry, could not be executed. *)
Theorem testElixir_extraneous_print (h : Host) (s : State) :
  (∀ stdout, runs_with h s stdout → stdout ≠ [] →
     (testElixir h s).1 = Return false
     ∧ (∃ calls,
          events_since s (testElixir h s).2 =
            calls
              ++ [ShowErrorMessage
                    "Running 'elixir' command caused extraneous print to stdout. See VS Code's developer console for details.";
                  ConsoleWarn
                    ("Running 'elixir -e "
                       +:+ String "034"%char
                             (String "034"%char "' printed to stdout:")
                       +:+ String "010"%char (Buffer_toString h stdout))]
          ∧ count is_notification calls = 0
          ∧ count is_ConsoleWarn calls = 0)
     ∧ ShowErrorMessage
         "Failed to run 'elixir' command. ElixirLS will probably fail to launch. Logged PATH to Development Console."
         ∉ events_since s (testElixir h s).2)
  ∧ (ShowErrorMessage
       "Failed to run 'elixir' command. ElixirLS will probably fail to launch. Logged PATH to Development Console."
       ∈ events_since s (testElixir h s).2 → not_runnable h s).
Proof.
  pose proof failed_to_run_not_extraneous as Hmsg.
  change "Running 'elixir' command caused extraneous print to stdout. See VS Code's developer console for details."
    with extraneous_print_message.
  change "Failed to run 'elixir' command. ElixirLS will probably fail to launch. Logged PATH to Development Console."
    with failed_to_run_message.
  split.
  - intros stdout Hruns Hne. unfold runs_with in Hruns.
    change ("Running 'elixir -e "
              +:+ String "034"%char (String "034"%char "' printed to stdout:")
              +:+ String "010"%char (Buffer_toString h stdout))
      with (extraneous_print_log h stdout).
    revert Hruns. probe_cases h s; intros Hruns.
    all: assert (∃ b l, stdout = b :: l) as (b' & l' & ->)
           by (destruct stdout; [done|eauto]).
    all: try (exfalso; destruct Hruns as [?|[? (? & ? & ?)]]; congruence).
    all: assert (l = l' ∧ b = b') as [-> ->]
           by (destruct Hruns as [?|[? (? & ? & ?)]]; split; congruence).
    all: split_and!; try done; [|intros Hin; in_calls Hin].
    + by exists [Exec (probe_command "elixir")].
    + by exists [Exec (probe_command "elixir"); Which "elixir";
                 Exec (probe_command path)].
  - unfold not_runnable. probe_cases h s; intros Hin; in_calls Hin.
    all: split; [done|]; congruence.
Qed.




(** ** The conflict detector *)

Lemma detectConflictingExtension_eq (h : Host) (extensionId : string) (s : State) :
  detectConflictingExtension h extensionId s =
    match getExtension h extensionId with
    | Some _ =>
        (Return (),
         add_events
           [ShowErrorMessage
              ("Warning: " +:+ extensionId
                 +:+ " is not compatible with ElixirLS Fork, please uninstall "
                 +:+ extensionId)] s)
    | None => (Return (), s)
    end.
Proof.
  unfold detectConflictingExtension.
  by destruct (getExtension h extensionId).
Qed.

Lemma detectConflictingExtension_harmless (h : Host) (extensionId : string) :
  harmless (detectConflictingExtension h extensionId).
Proof.
  intros s. rewrite detectConflictingExtension_eq.
  destruct (getExtension h extensionId); eauto.
  exists (), []. by rewrite add_events_nil.
Qed.

(** C5: when the registry of the host has the identifier, the detector
    shows exactly one warning, which names the identifier; when it has
    not, the detector shows nothing.  Either way it returns, makes no other
    call and leaves [languageClient] and the subscriptions as they were. *)
Theorem detectConflictingExtension_warns
    (h : Host) (extensionId : string) (s : State) :
  ∃ s', detectConflictingExtension h extensionId s = (Return (), s')
    ∧ languageClient s' = languageClient s
    ∧ subscriptions s' = subscriptions s
    ∧ (is_Some (vscode_extensions_getExtension h extensionId) →
         events_since s s' =
           [ShowErrorMessage
              ("Warning: " +:+ extensionId
                 +:+ " is not compatible with ElixirLS Fork, please uninstall "
                 +:+ extensionId)]
         ∧ ∃ msg, events_since s s' = [ShowErrorMessage msg]
                  ∧ contains extensionId msg)
    ∧ (vscode_extensions_getExtension h extensionId = None →
         s' = s ∧ events_since s s' = []).
Proof.
  rewrite detectConflictingExtension_eq. unfold getExtension.
  destruct (vscode_extensions_getExtension h extensionId)
    as [extension|] eqn:Hlookup.
  - eexists; split_and!; try done.
    intros _. rewrite events_since_add_events. split; [done|].
    eexists. split; [done|].
    apply contains_append_r, contains_start.
  - exists s; split_and!; try done.
    intros _. by rewrite events_since_refl.
Qed.

(** ** Deactivation *)

(** C7: with [languageClient] unset, as it is before any activation,
    [deactivate] returns [undefined] without throwing and without calling
    [stop]; with [languageClient] set, it stops that client and returns
    what [stop] returned. *)
Theorem deactivate_stops_client_if_any (s : State) :
  (languageClient s = None →
     deactivate s = (Return None, s)
     ∧ events_since s (deactivate s).2 = [])
  ∧ (∀ client, languageClient s = Some client →
       deactivate s =
         (Return (Some (StopThenable client)),
          add_events [ClientStop client] s))
  ∧ deactivate initial_state = (Return None, initial_state).
Proof.
  unfold deactivate, get_languageClient, mbind, M_bind. cbn.
  split_and!; [| |done].
  - intros ->. by rewrite events_since_refl.
  - by intros client ->.
Qed.

(** ** The debug-info command *)

(** The three ways [copyDebugInfo] ends. *)
Lemma copyDebugInfo_eq (h : Host) (s : State) :
  copyDebugInfo h s =
    match child_process_execSync h (trace s) "elixir --version" with
    | None =>
        (Throw (ExecError "elixir --version"),
         add_events [Exec "elixir --version"] s)
    | Some elixirVersion =>
        match getExtension h "jakebecker.elixir-ls" with
        | None =>
            (Throw (TypeError "packageJSON"),
             add_events [Exec "elixir --version"] s)
        | Some extension =>
            let message :=
              debug_message h elixirVersion (packageJSON_version extension) in
            (Return (),
             add_events
               [Exec "elixir --version";
                ShowInformationMessage ("Copied to clipboard: " +:+ message);
                ClipboardWriteText message] s)
        end
    end.
Proof.
  unfold copyDebugInfo, execSync, mbind, M_bind.
  destruct (child_process_execSync h (trace s) _) as [elixirVersion|];
    [|reflexivity].
  destruct (getExtension h _) as [extension|]; [|reflexivity].
  cbn [read_property]. by run_calls.
Qed.

(** The report carries each of its four values. *)
Lemma debug_message_contains (h : Host) (elixirVersion : Buffer) (version : string) :
  contains (Buffer_toString h elixirVersion)
    (debug_message h elixirVersion version)
  ∧ contains version (debug_message h elixirVersion version)
  ∧ contains (os_platform h) (debug_message h elixirVersion version)
  ∧ contains (os_release h) (debug_message h elixirVersion version).
Proof.
  unfold debug_message. split_and!.
  - do 2 apply contains_append_r. apply contains_start.
  - do 5 apply contains_append_r. apply contains_start.
  - do 8 apply contains_append_r. apply contains_start.
  - do 10 apply contains_append_r. apply contains_start.
Qed.

(** C6: every text that an invocation of the command writes to the
    clipboard is the report of lines 135-139 filled with the output of
    [elixir --version] as the runtime decodes it, the version of the
    manifest of the installed extension, the platform and the release, so
    it contains each of the four, and it is echoed in an informational
    notification; and the command does write that text once whenever the
    version query succeeds and the extension is found. *)
Theorem copyDebugInfo_report (h : Host) (s : State) :
  let calls := events_since s (copyDebugInfo h s).2 in
  (∀ text, ClipboardWriteText text ∈ calls →
     ∃ elixirVersion extension,
       child_process_execSync h (trace s) "elixir --version"
         = Some elixirVersion
       ∧ vscode_extensions_getExtension h "jakebecker.elixir-ls"
           = Some extension
       ∧ text =
           String "010"%char
             "  * Elixir & Erlang versions (elixir --version): "
             +:+ Buffer_toString h elixirVersion
             +:+ String "010"%char "  * VSCode ElixirLS Fork version: "
             +:+ packageJSON_version extension
             +:+ String "010"%char "  * Operating System Version: "
             +:+ os_platform h +:+ " " +:+ os_release h
             +:+ String "010"%char "  "
       ∧ contains (Buffer_toString h elixirVersion) text
       ∧ contains (packageJSON_version extension) text
       ∧ contains (os_platform h) text
       ∧ contains (os_release h) text
       ∧ ShowInformationMessage ("Copied to clipboard: " +:+ text) ∈ calls
       ∧ count is_ClipboardWriteText calls = 1)
  ∧ (∀ elixirVersion extension,
       child_process_execSync h (trace s) "elixir --version"
         = Some elixirVersion →
       vscode_extensions_getExtension h "jakebecker.elixir-ls"
         = Some extension →
       (copyDebugInfo h s).1 = Return ()
       ∧ ∃ text,
           calls = [Exec "elixir --version";
                    ShowInformationMessage ("Copied to clipboard: " +:+ text);
                    ClipboardWriteText text]).
Proof.
  cbv zeta. rewrite copyDebugInfo_eq. unfold getExtension.
  destruct (child_process_execSync h (trace s) _) as [elixirVersion|];
    [destruct (vscode_extensions_getExtension h _) as [extension|]|];
    cbn [fst snd]; rewrite events_since_add_events.
  - split.
    + intros text Hin. in_calls Hin. injection Hin as ->.
      destruct (debug_message_contains h elixirVersion
                  (packageJSON_version extension)) as (? & ? & ? & ?).
      exists elixirVersion, extension. split_and!; try done.
      set_unfold; auto.
    + intros ? ? [= <-] [= <-]. split; [done|]. by eexists.
  - split; [intros text Hin; in_calls Hin|]. by intros.
  - split; [intros text Hin; in_calls Hin|]. by intros.
Qed.

(** C8: the command reads [packageJSON] of the result of looking up
    ["jakebecker.elixir-ls"] without testing it, so when the registry has no
    such extension the command throws, after the version query at most, and
    neither shows a notification nor writes to the clipboard. *)
Theorem copyDebugInfo_missing_extension (h : Host) (s : State)
    (Hmissing : getExtension h "jakebecker.elixir-ls" = None) :
  copyDebugInfo h s =
    (Throw (match child_process_execSync h (trace s) "elixir --version" with
            | Some _ => TypeError "packageJSON"
            | None => ExecError "elixir --version"
            end),
     add_events [Exec "elixir --version"] s)
  ∧ count is_notification (events_since s (copyDebugInfo h s).2) = 0
  ∧ count is_ClipboardWriteText (events_since s (copyDebugInfo h s).2) = 0.
Proof.
  rewrite copyDebugInfo_eq, Hmissing.
  destruct (child_process_execSync h (trace s) _); cbn [fst snd];
    by rewrite events_since_add_events.
Qed.

(** C9: the version query of the command is neither guarded nor retried at
    a resolved path: when [elixir --version] cannot be executed the command
    throws what [execSync] threw, having made that one call only, whereas
    the probe never throws. *)
Theorem copyDebugInfo_unguarded_query (h : Host) (s : State)
    (Hfails : child_process_execSync h (trace s) "elixir --version" = None) :
  copyDebugInfo h s =
    (Throw (ExecError "elixir --version"),
     add_events [Exec "elixir --version"] s)
  ∧ events_since s (copyDebugInfo h s).2 = [Exec "elixir --version"]
  ∧ ∃ result calls, testElixir h s = (Return result, add_events calls s).
Proof.
  rewrite copyDebugInfo_eq, Hfails. cbn [fst snd].
  rewrite events_since_add_events. split_and!; try done.
  apply testElixir_harmless.
Qed.

(** ** Activation *)

Lemma bind_harmless {A B : Type} (m : M A) (k : A → M B) (s : State) :
  harmless m → ∃ a calls, (m ≫= k) s = k a (add_events calls s).
Proof.
  intros Hm. destruct (Hm s) as (a & calls & E). exists a, calls.
  unfold mbind, M_bind. by rewrite E.
Qed.

(** Runs the first call of a sequence, given that it is harmless. *)
Ltac step_harmless lem calls :=
  lazymatch goal with
  | |- context [ (?m ≫= ?k) ?s ] =>
      let a := fresh "a" in
      destruct (bind_harmless m k s ltac:(apply lem)) as (a & calls & ->);
      rewrite ?add_events_app
  end.

(** The watcher and the client that [activate] creates. *)
Lemma activate_eq (h : Host) (context : ExtensionContext) (s : State) :
  let watcher :=
    {| globPattern := "**/*.{ex,exs,erl,yrl,xrl,eex}";
       ignoreCreateEvents := false;
       ignoreChangeEvents := false;
       ignoreDeleteEvents := false |} in
  let client :=
    {| client_id := "elixirLS";
       client_name := "ElixirLS";
       client_serverOptions := serverOptions h context;
       client_clientOptions := clientOptions watcher |} in
  ∃ calls,
    activate h context s =
      (Return (),
       {| trace :=
            trace s ++ calls
              ++ [RegisterCommand "extension.copyDebugInfo"
                    Handler_copyDebugInfo;
                  CreateFileSystemWatcher "**/*.{ex,exs,erl,yrl,xrl,eex}";
                  NewLanguageClient client;
                  ClientStart client];
          languageClient := Some client;
          subscriptions := subscriptions s ++ [StartDisposable client] |}).
Proof.
  cbv zeta. unfold activate.
  step_harmless (testElixir_harmless h) calls1.
  step_harmless (detectConflictingExtension_harmless h) calls2.
  step_harmless (detectConflictingExtension_harmless h) calls3.
  step_harmless (detectConflictingExtension_harmless h) calls4.
  exists (((calls1 ++ calls2) ++ calls3) ++ calls4).
  run_calls. unfold set_languageClient, subscriptions_push, add_events.
  cbn. by rewrite <- !app_assoc.
Qed.

(** C2: whatever the probe and the conflict checks found, [activate]
    returns, having constructed the language client, assigned it to
    [languageClient], started it, and pushed the handle of the start on the
    subscriptions of the context. *)
Theorem activate_always_starts
    (h : Host) (context : ExtensionContext) (s : State) :
  ∃ client calls,
    activate h context s =
      (Return (),
       {| trace :=
            trace s ++ calls ++ [NewLanguageClient client; ClientStart client];
          languageClient := Some client;
          subscriptions := subscriptions s ++ [StartDisposable client] |}).
Proof.
  destruct (activate_eq h context s) as (calls & ->).
  eexists _, (calls ++ [_; _]). by rewrite <- !app_assoc.
Qed.

(** ** The launcher *)

Lemma string_last_append (pre suffix : string) :
  suffix ≠ EmptyString →
  string_last (pre +:+ suffix) = string_last suffix.
Proof.
  intros Hne. induction pre as [|c pre IH]; [done|].
  change (string_last (String c (pre +:+ suffix)) = string_last suffix).
  rewrite <- IH. cbn. destruct (pre +:+ suffix) eqn:E; [|done].
  destruct pre; [|done]. by destruct Hne.
Qed.

Lemma ends_with_last (suffix s : string) (c : ascii) :
  ends_with suffix s → string_last suffix = Some c → string_last s = Some c.
Proof.
  intros [pre ->] Hlast. rewrite string_last_append; [done|].
  by intros ->.
Qed.

Lemma launcher_script_cases (h : Host) :
  (os_platform h = "win32" ∧ launcher_script h = "language_server.bat")
  ∨ (os_platform h ≠ "win32" ∧ launcher_script h = "language_server.sh").
Proof. unfold launcher_script. case_bool_decide; auto. Qed.

(** C4: the command of the launcher is [asAbsolutePath] of
    ["./elixir-ls-release/"] followed by the script name, which is the
    batch script exactly when the platform is ["win32"] and the shell
    script otherwise; the launcher has no arguments, and serves both as the
    run and as the debug options.  For a context whose [asAbsolutePath]
    keeps the file name of a path, the command ends in the batch script
    name exactly on ["win32"] and in the shell script name exactly
    elsewhere. *)
Theorem activate_launcher
    (h : Host) (context : ExtensionContext) (s : State)
    (Hhost : keeps_file_name context) :
  ∃ client,
    languageClient (activate h context s).2 = Some client
    ∧ let launcher := run (client_serverOptions client) in
      debug (client_serverOptions client) = launcher
      ∧ args launcher = None
      ∧ (∃ script,
           command launcher =
             asAbsolutePath context ("./elixir-ls-release/" +:+ script)
           ∧ (script = "language_server.bat" ∨ script = "language_server.sh")
           ∧ (script = "language_server.bat" ↔ os_platform h = "win32"))
      ∧ (ends_with "language_server.bat" (command launcher)
           ↔ os_platform h = "win32")
      ∧ (ends_with "language_server.sh" (command launcher)
           ↔ os_platform h ≠ "win32").
Proof.
  destruct (activate_eq h context s) as (calls & ->).
  eexists; split; [reflexivity|]. cbn [run debug args command
    client_serverOptions serverOptions serverOpts].
  assert (ends_with "language_server.bat"
            (asAbsolutePath context
               ("./elixir-ls-release/" +:+ "language_server.bat"))) as Hbat
    by (by apply (Hhost "./elixir-ls-release" "language_server.bat")).
  assert (ends_with "language_server.sh"
            (asAbsolutePath context
               ("./elixir-ls-release/" +:+ "language_server.sh"))) as Hsh
    by (by apply (Hhost "./elixir-ls-release" "language_server.sh")).
  destruct (launcher_script_cases h) as [[Hwin ->]|[Hother ->]].
  - split_and!; try done.
    + exists "language_server.bat". split_and!; [done|auto|done].
    + split; [|done]. intros Hends. exfalso.
      apply ends_with_last with (c := "h"%char) in Hends; [|done].
      apply ends_with_last with (c := "t"%char) in Hbat; [|done].
      congruence.
  - split_and!; try done.
    + exists "language_server.sh". split_and!; [done|auto|].
      split; [discriminate|done].
    + split; [|done]. intros Hends. exfalso.
      apply ends_with_last with (c := "t"%char) in Hends; [|done].
      apply ends_with_last with (c := "h"%char) in Hsh; [|done].
      congruence.
Qed.

Lemma example_context_keeps_file_name : keeps_file_name example_context.
Proof.
  intros dir file _.
  exists ("/home/dev/.vscode/extensions/elixir-ls-fork" +:+ "/" +:+ dir +:+ "/").
  cbn [asAbsolutePath example_context]. by rewrite !append_assoc.
Qed.

(** ** The options of the client *)

(** C10: the client that [activate] creates is registered for exactly the
    documents of language ["elixir"] whose scheme is ["file"] or
    ["untitled"], synchronizes exactly the section ["elixirLS"], forwards
    the events of one watcher, on the glob
    ["**/*.{ex,exs,erl,yrl,xrl,eex}"] with no kind of event ignored, and
    never reveals the output channel. *)
Theorem activate_client_options
    (h : Host) (context : ExtensionContext) (s : State) :
  ∃ client,
    languageClient (activate h context s).2 = Some client
    ∧ let options := client_clientOptions client in
      (∀ glob_match document,
         selector_covers glob_match (documentSelector options) document = true
         ↔ doc_languageId document = "elixir"
           ∧ (doc_scheme document = "file"
              ∨ doc_scheme document = "untitled"))
      ∧ configurationSection (synchronize options) = "elixirLS"
      ∧ fileEvents (synchronize options) =
          [ {| globPattern := "**/*.{ex,exs,erl,yrl,xrl,eex}";
               ignoreCreateEvents := false;
               ignoreChangeEvents := false;
               ignoreDeleteEvents := false |} ]
      ∧ CreateFileSystemWatcher "**/*.{ex,exs,erl,yrl,xrl,eex}"
          ∈ events_since s (activate h context s).2
      ∧ revealOutputChannelOn options = RevealOutputChannelOn.Never.
Proof.
  destruct (activate_eq h context s) as (calls & ->).
  eexists; split; [reflexivity|]. cbv zeta.
  cbn [client_clientOptions clientOptions documentSelector synchronize
       configurationSection fileEvents revealOutputChannelOn snd].
  split_and!; try done.
  - intros glob_match [lang sch file].
    unfold selector_covers, filter_matches, field_matches.
    cbn [existsb language scheme pattern doc_languageId doc_scheme].
    rewrite !orb_true_iff, !andb_true_iff, !orb_true_iff,
      !bool_decide_eq_true.
    split.
    + intros [[[[<-|?] [<-|?]] _]|[[[[<-|?] [<-|?]] _]|?]];
        try done; auto.
    + intros [<- [<-| <-]]; auto 10.
  - unfold events_since. cbn [trace]. rewrite drop_app_length.
    set_unfold. auto 10.
Qed.

(** ** The program on the example hosts *)

(** With no runtime anywhere, the probe runs one process, searches the
    path, warns once and logs the search path. *)
Example testElixir_bare_host :
  testElixir bare_host initial_state =
    (Return false,
     add_events
       [Exec (probe_command "elixir"); Which "elixir";
        ShowErrorMessage failed_to_run_message;
        ConsoleWarn
          "Failed to run 'elixir' command. Current process's PATH: /usr/local/bin:/usr/bin:/bin"]
       initial_state).
Proof. reflexivity. Qed.

(** With a runtime that only the path search finds, the probe runs two
    processes and succeeds silently. *)
Example testElixir_resolving_host :
  testElixir resolving_host initial_state =
    (Return true,
     add_events
       [Exec (probe_command "elixir"); Which "elixir";
        Exec (probe_command "/opt/elixir/bin/elixir")]
       initial_state).
Proof. reflexivity. Qed.

(** An empty buffer is an object, hence not a failure: a runtime that
    prints nothing passes at the first run. *)
Example testElixir_quiet_host :
  testElixir (steady_host (λ _, Some []) None ∅ "linux") initial_state =
    (Return true, add_events [Exec (probe_command "elixir")] initial_state).
Proof. reflexivity. Qed.

(** The report that the command copies on [resolving_host]. *)
Example copyDebugInfo_resolving_host :
  events_since initial_state (copyDebugInfo resolving_host initial_state).2 =
    let text :=
      newline
        +:+ "  * Elixir & Erlang versions (elixir --version): Elixir 1.10.4"
        +:+ newline
        +:+ "  * VSCode ElixirLS Fork version: 0.2.3" +:+ newline
        +:+ "  * Operating System Version: darwin 5.15.0" +:+ newline
        +:+ "  " in
    [Exec "elixir --version";
     ShowInformationMessage ("Copied to clipboard: " +:+ text);
     ClipboardWriteText text].
Proof. vm_compute. reflexivity. Qed.

(** Activation on [bare_host], where the probe fails: the client is
    created and started all the same, on the batch script. *)
Example activate_bare_host :
  ∃ client,
    languageClient (activate bare_host example_context initial_state).2
      = Some client
    ∧ subscriptions (activate bare_host example_context initial_state).2
      = [StartDisposable client]
    ∧ command (run (client_serverOptions client))
      = "/home/dev/.vscode/extensions/elixir-ls-fork/./elixir-ls-release/language_server.bat"
    ∧ last (trace (activate bare_host example_context initial_state).2)
      = Some (ClientStart client).
Proof. eexists. vm_compute. split_and!; reflexivity. Qed.

(** Activation on [resolving_host] warns about the one conflicting
    extension that is installed. *)
Example activate_resolving_host_warnings :
  List.filter is_notification
    (trace (activate resolving_host example_context initial_state).2) =
    [ShowErrorMessage
       "Warning: mjmcloug.vscode-elixir is not compatible with ElixirLS Fork, please uninstall mjmcloug.vscode-elixir"].
Proof. vm_compute. reflexivity. Qed.

(** The host invokes the registered command through its handler. *)
Example run_handler_copyDebugInfo (h : Host) :
  run_handler h Handler_copyDebugInfo = copyDebugInfo h.
Proof. reflexivity. Qed.

(** Activation registers [copyDebugInfo] as the handler of the command
    [extension.copyDebugInfo]. *)
Lemma activate_registers_copyDebugInfo
    (h : Host) (context : ExtensionContext) (s : State) :
  RegisterCommand "extension.copyDebugInfo" Handler_copyDebugInfo
    ∈ events_since s (activate h context s).2.
Proof.
  destruct (activate_eq h context s) as (calls & ->).
  unfold events_since. cbn [snd trace]. rewrite drop_app_length.
  set_unfold. auto.
Qed.

(** X9: deactivation after an activation, whatever the activation found,
    stops the client that the activation started and returns the result of
    that stop. *)
Lemma deactivate_after_activate
    (h : Host) (context : ExtensionContext) (s : State) :
  ∃ client,
    languageClient (activate h context s).2 = Some client
    ∧ deactivate (activate h context s).2 =
        (Return (Some (StopThenable client)),
         add_events [ClientStop client] (activate h context s).2).
Proof.
  destruct (activate_eq h context s) as (calls & ->).
  eexists. split; reflexivity.
Qed.

(** ** The conditional statements at work *)

Lemma testElixir_extraneous_print_witness :
  runs_with noisy_host initial_state greeting
  ∧ (testElixir noisy_host initial_state).1 = Return false
  ∧ last (events_since initial_state (testElixir noisy_host initial_state).2)
    = Some (ConsoleWarn
              ("Running 'elixir -e "
                 +:+ String "034"%char
                       (String "034"%char "' printed to stdout:")
                 +:+ String "010"%char ("hi" +:+ newline)))
  ∧ ShowErrorMessage failed_to_run_message
      ∉ events_since initial_state (testElixir noisy_host initial_state).2.
Proof.
  assert (runs_with noisy_host initial_state greeting) as Hruns
    by (left; reflexivity).
  destruct (testElixir_extraneous_print noisy_host initial_state)
    as [Hprint _].
  destruct (Hprint greeting Hruns ltac:(discriminate))
    as (Hreturn & (calls & Hcalls & _ & _) & Hnot).
  split_and!; try assumption.
  rewrite Hcalls, (last_app_cons calls [_] _). reflexivity.
Defined.


Lemma detectConflictingExtension_warns_witness :
  is_Some (vscode_extensions_getExtension resolving_host
             "mjmcloug.vscode-elixir")
  ∧ events_since initial_state
      (detectConflictingExtension resolving_host "mjmcloug.vscode-elixir"
         initial_state).2
    = [ShowErrorMessage
         "Warning: mjmcloug.vscode-elixir is not compatible with ElixirLS Fork, please uninstall mjmcloug.vscode-elixir"]
  ∧ vscode_extensions_getExtension resolving_host
      "sammkj.vscode-elixir-formatter" = None
  ∧ events_since initial_state
      (detectConflictingExtension resolving_host
         "sammkj.vscode-elixir-formatter" initial_state).2
    = [].
Proof.
  assert (is_Some (vscode_extensions_getExtension resolving_host
                     "mjmcloug.vscode-elixir")) as Hinstalled
    by (by eexists).
  destruct (detectConflictingExtension_warns resolving_host
              "mjmcloug.vscode-elixir" initial_state)
    as (s1 & Hrun1 & _ & _ & Hwarns & _).
  destruct (detectConflictingExtension_warns resolving_host
              "sammkj.vscode-elixir-formatter" initial_state)
    as (s2 & Hrun2 & _ & _ & _ & Hquiet).
  rewrite Hrun1, Hrun2. cbn [snd].
  split_and!; [assumption| |reflexivity|].
  - by destruct (Hwarns Hinstalled) as [-> _].
  - by destruct (Hquiet eq_refl) as [_ ->].
Defined.

Lemma copyDebugInfo_report_witness :
  (copyDebugInfo resolving_host initial_state).1 = Return ()
  ∧ ∃ text,
      last (events_since initial_state
              (copyDebugInfo resolving_host initial_state).2)
        = Some (ClipboardWriteText text)
      ∧ contains "Elixir 1.10.4" text
      ∧ contains "0.2.3" text
      ∧ contains "darwin" text.
Proof.
  destruct (copyDebugInfo_report resolving_host initial_state)
    as [Hwritten Hwrites].
  destruct (Hwrites version_banner
              {| extension_id := "jakebecker.elixir-ls";
                 packageJSON_version := "0.2.3" |}
              eq_refl eq_refl) as [Hreturn (text & Hcalls)].
  split; [assumption|]. exists text.
  destruct (Hwritten text) as (out & ext & Hout & Hext & _ & H1 & H2 & H3 & _).
  { rewrite Hcalls. set_unfold. auto. }
  injection Hout as <-. injection Hext as <-.
  rewrite Hcalls. split_and!; [reflexivity|exact H1|exact H2|exact H3].
Defined.

Lemma copyDebugInfo_missing_extension_witness :
  getExtension noisy_host "jakebecker.elixir-ls" = None
  ∧ copyDebugInfo noisy_host initial_state =
      (Throw (TypeError "packageJSON"),
       add_events [Exec "elixir --version"] initial_state).
Proof.
  split; [reflexivity|].
  apply (copyDebugInfo_missing_extension noisy_host initial_state eq_refl).
Defined.

Lemma copyDebugInfo_unguarded_query_witness :
  child_process_execSync bare_host (trace initial_state) "elixir --version"
    = None
  ∧ copyDebugInfo bare_host initial_state =
      (Throw (ExecError "elixir --version"),
       add_events [Exec "elixir --version"] initial_state).
Proof.
  split; [reflexivity|].
  apply (copyDebugInfo_unguarded_query bare_host initial_state eq_refl).
Defined.

Lemma activate_launcher_witness :
  keeps_file_name example_context
  ∧ ∃ client,
      languageClient (activate bare_host example_context initial_state).2
        = Some client
      ∧ ends_with "language_server.bat"
          (command (run (client_serverOptions client))).
Proof.
  split; [apply example_context_keeps_file_name|].
  destruct (activate_launcher bare_host example_context initial_state
              example_context_keeps_file_name)
    as (client & Hclient & _ & _ & _ & Hbat & _).
  exists client. split; [assumption|]. by apply Hbat.
Defined.

(** * Further properties of the code *)

(** ** [testElixirCommand] *)


(** ** [testElixir] *)

(** X2: the probe reports success exactly when the runtime command was
    executed, directly or at the path found after a failed direct run, and
    printed nothing. *)
Theorem testElixir_true_iff (h : Host) (s : State) :
  (testElixir h s).1 = Return true ↔ runs_with h s [].
Proof.
  unfold runs_with. probe_cases h s.
  - split; auto.
  - split; [discriminate|]. intros [?|[? _]]; discriminate.
  - split; [|done]. intros _. right. split; [done|]. by exists path.
  - split; [discriminate|].
    intros [?|[_ (path' & ? & ?)]]; [discriminate|]. congruence.
  - split; [discriminate|].
    intros [?|[_ (path' & ? & ?)]]; [discriminate|]. congruence.
  - split; [discriminate|].
    intros [?|[_ (path' & ? & ?)]]; discriminate.
Qed.

(** X3: the probe never throws and touches neither [languageClient] nor
    the subscriptions.  It shows one warning and writes one console line
    when it answers [false], and none of either when it answers [true];
    all its calls are process runs, the path search, that warning and that
    console line. *)
Theorem testElixir_one_warning_when_false (h : Host) (s : State) :
  let calls := events_since s (testElixir h s).2 in
  ∃ result,
    testElixir h s = (Return result, add_events calls s)
    ∧ count is_notification calls = (if result then 0 else 1)
    ∧ count is_ConsoleWarn calls = (if result then 0 else 1)
    ∧ forallb probe_call calls = true.
Proof.
  cbv zeta. probe_cases h s.
  all: rewrite ?add_events_app, ?events_since_add_events; cbn [app].
  all: eexists; split_and!; reflexivity.
Qed.

(** X4: when the runtime cannot be run and the environment has no [PATH],
    the console line of the probe ends in the text [undefined]. *)
Theorem testElixir_unset_PATH (h : Host) (s : State)
    (Hunset : process_env h !! "PATH" = None)
    (Hnot : not_runnable h s) :
  last (events_since s (testElixir h s).2) =
    Some (ConsoleWarn
            "Failed to run 'elixir' command. Current process's PATH: undefined").
Proof.
  destruct Hnot as [Hd Hall]. revert Hd Hall.
  assert (failed_to_run_log h =
            "Failed to run 'elixir' command. Current process's PATH: undefined")
    as <- by (unfold failed_to_run_log; by rewrite Hunset).
  probe_cases h s; intros Hd Hall; try discriminate Hd;
    try (specialize (Hall _ eq_refl); congruence); reflexivity.
Qed.

Lemma testElixir_unset_PATH_witness :
  last (events_since initial_state (testElixir pathless_host initial_state).2) =
    Some (ConsoleWarn
            "Failed to run 'elixir' command. Current process's PATH: undefined").
Proof.
  apply (testElixir_unset_PATH pathless_host initial_state).
  - reflexivity.
  - split; [reflexivity|discriminate].
Defined.

(** ** [activate] *)

Lemma bind_Return {A B : Type} (m : M A) (k : A → M B) (s s1 : State) (a : A) :
  m s = (Return a, s1) → (m ≫= k) s = k a s1.
Proof. intros E. unfold mbind, M_bind. by rewrite E. Qed.

Lemma detectConflictingExtension_calls
    (h : Host) (extensionId : string) (s : State) :
  detectConflictingExtension h extensionId s =
    (Return (), add_events (conflict_warning h extensionId) s).
Proof.
  rewrite detectConflictingExtension_eq. unfold conflict_warning.
  destruct (getExtension h extensionId); [done|]. by rewrite add_events_nil.
Qed.

Lemma testElixir_probe_calls (h : Host) (s : State) :
  forallb probe_call (events_since s (testElixir h s).2) = true.
Proof. probe_cases h s; reflexivity. Qed.

(** The calls of [activate], in order. *)
Lemma activate_calls (h : Host) (context : ExtensionContext) (s : State) :
  let watcher :=
    {| globPattern := "**/*.{ex,exs,erl,yrl,xrl,eex}";
       ignoreCreateEvents := false;
       ignoreChangeEvents := false;
       ignoreDeleteEvents := false |} in
  let client :=
    {| client_id := "elixirLS";
       client_name := "ElixirLS";
       client_serverOptions := serverOptions h context;
       client_clientOptions := clientOptions watcher |} in
  events_since s (activate h context s).2 =
    events_since s (testElixir h s).2
      ++ conflict_warning h "mjmcloug.vscode-elixir"
      ++ conflict_warning h "elixir-lsp.elixir-ls"
      ++ conflict_warning h "sammkj.vscode-elixir-formatter"
      ++ [RegisterCommand "extension.copyDebugInfo" Handler_copyDebugInfo;
          CreateFileSystemWatcher "**/*.{ex,exs,erl,yrl,xrl,eex}";
          NewLanguageClient client;
          ClientStart client].
Proof.
  cbv zeta. unfold activate.
  destruct (testElixir_harmless h s) as (result & calls & E).
  rewrite (bind_Return _ _ _ _ _ E), E. cbn [snd].
  rewrite events_since_add_events.
  do 3 (rewrite (bind_Return _ _ _ _ _ (detectConflictingExtension_calls _ _ _));
        rewrite add_events_app).
  run_calls. unfold set_languageClient, subscriptions_push, events_since.
  cbn [snd trace add_events log]. rewrite <- !app_assoc. cbn [app].
  by rewrite drop_app_length.
Qed.

(** X5: the calls of [activate] are, in this order: those of the probe;
    one warning for each of [mjmcloug.vscode-elixir],
    [elixir-lsp.elixir-ls] and [sammkj.vscode-elixir-formatter] that the
    registry has, and none for any other extension; the registration of
    [copyDebugInfo] as [extension.copyDebugInfo]; the creation of the
    watcher; the construction of the client; its start. *)
Theorem activate_call_order
    (h : Host) (context : ExtensionContext) (s : State) :
  ∃ client,
    languageClient (activate h context s).2 = Some client
    ∧ events_since s (activate h context s).2 =
        events_since s (testElixir h s).2
          ++ conflict_warning h "mjmcloug.vscode-elixir"
          ++ conflict_warning h "elixir-lsp.elixir-ls"
          ++ conflict_warning h "sammkj.vscode-elixir-formatter"
          ++ [RegisterCommand "extension.copyDebugInfo" Handler_copyDebugInfo;
              CreateFileSystemWatcher "**/*.{ex,exs,erl,yrl,xrl,eex}";
              NewLanguageClient client;
              ClientStart client].
Proof.
  eexists. split; [|apply activate_calls].
  destruct (activate_eq h context s) as (calls & ->). reflexivity.
Qed.

Lemma count_app (p : Event → bool) (calls1 calls2 : list Event) :
  count p (calls1 ++ calls2) = count p calls1 + count p calls2.
Proof. unfold count. by rewrite List.filter_app, length_app. Qed.

Lemma forallb_count_0 (p q : Event → bool) (calls : list Event) :
  forallb p calls = true →
  (∀ ev, p ev = true → q ev = false) →
  count q calls = 0.
Proof.
  intros Hall Hpq. induction calls as [|ev calls IH]; [done|].
  cbn in Hall. apply andb_true_iff in Hall as [Hev Hcalls].
  unfold count. cbn. rewrite (Hpq ev Hev). by apply IH.
Qed.

Lemma forallb_weaken (p q : Event → bool) (calls : list Event) :
  forallb p calls = true →
  (∀ ev, p ev = true → q ev = true) →
  forallb q calls = true.
Proof.
  intros Hall Hpq. induction calls as [|ev calls IH]; [done|].
  cbn in *. apply andb_true_iff in Hall as [Hev Hcalls].
  by rewrite (Hpq ev Hev), IH.
Qed.

Lemma conflict_warning_probe_calls (h : Host) (extensionId : string) :
  forallb probe_call (conflict_warning h extensionId) = true.
Proof. unfold conflict_warning. by destruct (getExtension h extensionId). Qed.

(** What [activate] calls before it registers the command is made of
    process runs, the path search, warnings and console lines. *)
Lemma activate_prefix_probe_calls (h : Host) (s : State) :
  forallb probe_call
    (events_since s (testElixir h s).2
       ++ conflict_warning h "mjmcloug.vscode-elixir"
       ++ conflict_warning h "elixir-lsp.elixir-ls"
       ++ conflict_warning h "sammkj.vscode-elixir-formatter") = true.
Proof.
  rewrite !forallb_app, testElixir_probe_calls,
    !conflict_warning_probe_calls. reflexivity.
Qed.

(** X6: whatever the state it starts in, also with [languageClient]
    already set, [activate] registers one command, constructs one client
    and starts one client, and it never stops a client, never writes to the
    clipboard and never shows an informational message. *)
Theorem activate_never_stops
    (h : Host) (context : ExtensionContext) (s : State) :
  let calls := events_since s (activate h context s).2 in
  forallb (λ ev, negb (closing_call ev)) calls = true
  ∧ count is_RegisterCommand calls = 1
  ∧ count is_NewLanguageClient calls = 1
  ∧ count is_ClientStart calls = 1.
Proof.
  cbv zeta. rewrite activate_calls. cbv zeta.
  rewrite !app_assoc.
  pose proof (activate_prefix_probe_calls h s) as Hprefix.
  rewrite !app_assoc in Hprefix.
  split_and!.
  - rewrite forallb_app. apply andb_true_iff. split; [|reflexivity].
    apply (forallb_weaken _ _ _ Hprefix). by intros [].
  - rewrite count_app, (forallb_count_0 _ _ _ Hprefix); [done|by intros []].
  - rewrite count_app, (forallb_count_0 _ _ _ Hprefix); [done|by intros []].
  - rewrite count_app, (forallb_count_0 _ _ _ Hprefix); [done|by intros []].
Qed.

(** X7: the client that [activate] creates depends on the host only
    through whether its platform is ["win32"]: two hosts that agree on
    that, in whatever states, get the same client from the same context,
    whatever their probes and conflict checks found. *)
Theorem activate_client_depends_on_platform
    (h h' : Host) (context : ExtensionContext) (s s' : State)
    (Hplatform : os_platform h = "win32" ↔ os_platform h' = "win32") :
  languageClient (activate h context s).2
    = languageClient (activate h' context s').2.
Proof.
  destruct (activate_eq h context s) as (calls & ->).
  destruct (activate_eq h' context s') as (calls' & ->).
  cbn [snd languageClient]. do 2 f_equal.
  unfold serverOptions, serverOpts, launcher_script.
  repeat case_bool_decide; tauto.
Qed.

Lemma activate_client_depends_on_platform_witness :
  languageClient (activate noisy_host example_context initial_state).2
    = languageClient
        (activate resolving_host example_context
           (add_events [Which "elixir"] initial_state)).2.
Proof.
  apply activate_client_depends_on_platform.
  split; discriminate.
Defined.

(** ** [deactivate] *)

Lemma deactivate_eq (s : State) :
  deactivate s =
    match languageClient s with
    | Some client =>
        (Return (Some (StopThenable client)),
         add_events [ClientStop client] s)
    | None => (Return None, s)
    end.
Proof. destruct s as [calls [client|] handles]; reflexivity. Qed.

(** X8: [deactivate] assigns nothing: [languageClient] and the
    subscriptions are after it what they were before.  So a second
    [deactivate] stops the same client once more, and without a client
    both calls do nothing. *)
Theorem deactivate_keeps_handle (s : State) :
  languageClient (deactivate s).2 = languageClient s
  ∧ subscriptions (deactivate s).2 = subscriptions s
  ∧ deactivate (deactivate s).2 =
      match languageClient s with
      | Some client =>
          (Return (Some (StopThenable client)),
           add_events [ClientStop client; ClientStop client] s)
      | None => (Return None, s)
      end.
Proof.
  rewrite (deactivate_eq s).
  destruct (languageClient s) as [client|] eqn:Hclient; cbn [snd].
  - rewrite deactivate_eq. cbn [languageClient subscriptions add_events].
    rewrite Hclient. split_and!; try done. by rewrite add_events_app.
  - rewrite deactivate_eq, Hclient. done.
Qed.

(** ** [copyDebugInfo] *)

(** X10: the command returns exactly when the version query succeeds and
    the registry has ["jakebecker.elixir-ls"].  In every case its first
    call is the one process run it makes, it never searches the path, never
    shows a warning and never writes to the console, and it leaves
    [languageClient] and the subscriptions as they were. *)
Theorem copyDebugInfo_returns_iff (h : Host) (s : State) :
  let calls := events_since s (copyDebugInfo h s).2 in
  ((copyDebugInfo h s).1 = Return () ↔
     is_Some (child_process_execSync h (trace s) "elixir --version")
     ∧ is_Some (getExtension h "jakebecker.elixir-ls"))
  ∧ head calls = Some (Exec "elixir --version")
  ∧ count is_Exec calls = 1
  ∧ count is_Which calls = 0
  ∧ count is_ShowErrorMessage calls = 0
  ∧ count is_ConsoleWarn calls = 0
  ∧ (copyDebugInfo h s).2 = add_events calls s.
Proof.
  cbv zeta. rewrite copyDebugInfo_eq.
  destruct (child_process_execSync h (trace s) _) as [elixirVersion|];
    [destruct (getExtension h _) as [extension|]|];
    cbn [fst snd]; rewrite events_since_add_events.
  all: split_and!; try done.
  - split; [discriminate|]. by intros [_ [? ?]].
  - split; [discriminate|]. by intros [[? ?] _].
Qed.

(** ** The decoder of the example hosts *)

(** Output in ASCII decodes to itself. *)
Lemma utf8_decode_ascii (b : Buffer) :
  Forall (λ byte, (Byte.to_N byte <= 0x7F)%N) b →
  utf8_decode b = String.string_of_list_byte b.
Proof.
  unfold utf8_decode. intros Hascii. f_equal.
  induction Hascii as [|byte rest Hbyte _ IH]; [done|].
  cbn [utf8_bytes]. unfold lead_byte.
  apply N.leb_le in Hbyte. rewrite Hbyte. by rewrite IH.
Qed.

(** A well-formed sequence is kept, here the three bytes of the euro sign
    and the four bytes of a character beyond the basic plane. *)
Example utf8_decode_well_formed :
  utf8_decode [xe2; x82; xac; xf0; x9f; x92; xa9]%byte
    = String.string_of_list_byte [xe2; x82; xac; xf0; x9f; x92; xa9]%byte.
Proof. reflexivity. Qed.

(** A byte that starts nothing, a sequence cut short by the end or by the
    next character, and an overlong or surrogate form are replaced. *)
Example utf8_decode_ill_formed :
  utf8_decode [x68; xff; x69]%byte
    = String.string_of_list_byte ([x68] ++ replacement ++ [x69])%byte
  ∧ utf8_decode [xe2; x82]%byte = String.string_of_list_byte replacement
  ∧ utf8_decode [xe2; x41]%byte
    = String.string_of_list_byte (replacement ++ [x41])%byte
  ∧ utf8_decode [xc0; x80]%byte
    = String.string_of_list_byte (replacement ++ replacement)
  ∧ utf8_decode [xed; xa0; x80]%byte
    = String.string_of_list_byte (replacement ++ replacement ++ replacement).
Proof. split_and!; reflexivity. Qed.
